(** * ErrorBoundary: a shallow embedding of
      src/components/common/ErrorBoundary/ErrorBoundary.tsx

    The component is a React class component with three pieces of
    behaviour: the two error lifecycle hooks, the reset handler and
    [render].  The embedding keeps the shape of the TypeScript source:

    - values the code branches on (ReactNode, Error, ErrorInfo, the
      component state, the props, [import.meta.env]) are records and
      inductive types;
    - a JavaScript evaluation that can throw is a [Completion];
    - the value React hands to the two hooks is whatever the descendant
      threw.  The hooks declare it [Error], but nothing checks that, and
      a descendant that runs [throw null] delivers [null]; so the value
      is nullable here, within the type [Error | null] of the state
      field that stores it;
    - a method that writes [this.state] or calls out (console, the
      [onError] prop) runs in the small monad [M] over a [World] holding
      the component state and the trace of outside calls;
    - what React itself does around the hooks (merging the partial state
      returned by a hook, calling [componentDidCatch] after
      [getDerivedStateFromError], applying the updates a method queued
      when it returns and dropping them when it throws, delivering a
      click to the handler of a rendered element, giving up on the
      boundary when the tree it returned fails to render) is written
      once, in [merge], [react_derive], [react_commit] and [step], and
      named as such. *)

From Stdlib Require Import Bool List String Ascii ZArith Lia DecimalString.
Import ListNotations.
Open Scope string_scope.
Set Warnings "-register-all".

(* ===================================================================== *)
(** ** JavaScript values the component touches *)
(* ===================================================================== *)

Module Js.

(** An [Error] object: the two own properties [Error.prototype.toString]
    reads. *)
Record Error := mkError { name : string; message : string }.

(** React's [ErrorInfo]: [componentStack?: string | null].  [None] is
    the absent (undefined) stack. *)
Record ErrorInfo := mkErrorInfo { componentStack : option string }.

(** The outcome of evaluating JavaScript code: a value, or a thrown
    exception. *)
Inductive Completion (A : Type) : Type :=
| Normal (a : A)
| Throw (exn : Error).
Arguments Normal {A} a.
Arguments Throw {A} exn.

Definition bindC {A B} (c : Completion A) (k : A -> Completion B)
  : Completion B :=
  match c with
  | Normal a => k a
  | Throw exn => Throw exn
  end.

Definition is_empty (s : string) : bool :=
  match s with EmptyString => true | String _ _ => false end.

(** [Error.prototype.toString] (ECMA-262, 20.5.3.4): the name alone when
    the message is empty, the message alone when the name is empty,
    otherwise [name: message]. *)
Definition Error_toString (e : Error) : string :=
  if is_empty (name e) then message e
  else if is_empty (message e) then name e
  else name e ++ ": " ++ message e.

(** What reading a property of [null] throws. *)
Definition TypeError_null (prop : string) : Error :=
  mkError "TypeError"
          ("Cannot read properties of null (reading '" ++ prop ++ "')").

(** [x.toString()] on a nullable reference [x : Error | null]: a
    method call on [null] throws. *)
Definition call_toString (x : option Error) : Completion string :=
  match x with
  | Some e => Normal (Error_toString e)
  | None => Throw (TypeError_null "toString")
  end.

(** [x.componentStack] on a nullable reference, without optional
    chaining; used to contrast with [opt_componentStack]. *)
Definition get_componentStack (x : option ErrorInfo)
  : Completion (option string) :=
  match x with
  | Some i => Normal (componentStack i)
  | None => Throw (TypeError_null "componentStack")
  end.

(** [x?.componentStack]: undefined when [x] is null, never throws. *)
Definition opt_componentStack (x : option ErrorInfo) : option string :=
  match x with
  | Some i => componentStack i
  | None => None
  end.

(** Truthiness of [Error | null]: an object is truthy, [null] is not. *)
Definition truthy_ref {A} (x : option A) : bool :=
  match x with Some _ => true | None => false end.

End Js.
Import Js.

(* ===================================================================== *)
(** ** Markup: ReactNode *)
(* ===================================================================== *)

Module Markup.

(** The event handlers the component passes down. *)
Inductive Handler := HandleReset.

(** A JSX attribute value: a string literal, a class name looked up in
    the CSS module ([styles.key], resolved by the bundler), or a
    handler. *)
Inductive Attr :=
| AStr (s : string)
| AStyle (key : string)
| AHandler (h : Handler).

(** The type of an element: a host tag or an imported component. *)
Inductive ElemType :=
| Host (tag : string)
| Comp (cname : string).

(** [ReactNode]: the values JSX children and node-typed props range
    over.  [RNumber n] stands for the number [n] when [n] is a safe
    integer (below 2^53 in absolute value); other numbers are outside
    the model. *)
Inductive ReactNode :=
| RNull
| RUndefined
| RBool (b : bool)
| RString (s : string)
| RNumber (n : Z)
| RFragment (items : list ReactNode)
| RElement (ty : ElemType) (attrs : list (string * Attr))
           (kids : list ReactNode).

(** JavaScript truthiness ([ToBoolean]) of a node value. *)
Definition truthy (n : ReactNode) : bool :=
  match n with
  | RNull | RUndefined => false
  | RBool b => b
  | RString s => negb (is_empty s)
  | RNumber z => negb (Z.eqb z 0)
  | RFragment _ | RElement _ _ _ => true
  end.

(** A nullable string as a JSX child. *)
Definition child_of_opt (s : option string) : ReactNode :=
  match s with
  | Some t => RString t
  | None => RUndefined
  end.

Definition concat_all (l : list string) : string :=
  fold_right append EmptyString l.

(** The text React puts in the document for a node: strings and numbers
    are text, [null], [undefined] and booleans render nothing.  A safe
    integer prints as its decimal digits. *)
Fixpoint textContent (n : ReactNode) : string :=
  match n with
  | RNull | RUndefined | RBool _ => EmptyString
  | RString s => s
  | RNumber z => NilZero.string_of_int (Z.to_int z)
  | RFragment items => concat_all (map textContent items)
  | RElement _ _ kids => concat_all (map textContent kids)
  end.

(** Does some node of the tree (the root included) satisfy [p]? *)
Fixpoint exists_node (p : ReactNode -> bool) (n : ReactNode) : bool :=
  p n ||
  match n with
  | RFragment items => existsb (exists_node p) items
  | RElement _ _ kids => existsb (exists_node p) kids
  | _ => false
  end.

(** The first node, in document order, that satisfies [p]. *)
Fixpoint find_node (p : ReactNode -> bool) (n : ReactNode)
  : option ReactNode :=
  if p n then Some n
  else
    let first :=
      fold_right (fun k rest =>
                    match find_node p k with
                    | Some r => Some r
                    | None => rest
                    end) None in
    match n with
    | RFragment items => first items
    | RElement _ _ kids => first kids
    | _ => None
    end.

Definition attr_of (key : string) (attrs : list (string * Attr))
  : option Attr :=
  match find (fun kv => String.eqb (fst kv) key) attrs with
  | Some kv => Some (snd kv)
  | None => None
  end.

Definition is_host (tag : string) (n : ReactNode) : bool :=
  match n with
  | RElement (Host t) _ _ => String.eqb t tag
  | _ => false
  end.

Definition is_comp (c : string) (n : ReactNode) : bool :=
  match n with
  | RElement (Comp t) _ _ => String.eqb t c
  | _ => false
  end.

Definition has_class (key : string) (n : ReactNode) : bool :=
  match n with
  | RElement _ attrs _ =>
      match attr_of "className" attrs with
      | Some (AStyle k) => String.eqb k key
      | _ => false
      end
  | _ => false
  end.

Definition has_handler (ev : string) (h : Handler) (n : ReactNode) : bool :=
  match n with
  | RElement _ attrs _ =>
      match attr_of ev attrs with
      | Some (AHandler HandleReset) =>
          match h with HandleReset => true end
      | _ => false
      end
  | _ => false
  end.

(** The [to] targets of the router links of a tree, in document order. *)
Fixpoint link_targets (n : ReactNode) : list string :=
  match n with
  | RElement ty attrs kids =>
      (if is_comp "Link" n
       then match attr_of "to" attrs with
            | Some (AStr target) => [target]
            | _ => []
            end
       else [])
      ++ flat_map link_targets kids
  | RFragment items => flat_map link_targets items
  | _ => []
  end.

End Markup.
Import Markup.

(* ===================================================================== *)
(** ** The component's types *)
(* ===================================================================== *)

Module ErrorBoundary.

(** [import.meta.env]: the two build flags the component reads. *)
Record ImportMetaEnv := mkEnv { DEV : bool; PROD : bool }.

(** [interface ErrorBoundaryProps].  An optional prop that is left out
    is [None]; the callback is a function of the two arguments it is
    called with, whose evaluation returns or throws.  Its first argument
    is the thrown value, [None] when that value is [null]. *)
Record ErrorBoundaryProps := mkProps {
  children : ReactNode;
  fallback : option ReactNode;
  onError : option (option Error -> ErrorInfo -> Completion unit)
}.

(** [interface ErrorBoundaryState]. *)
Record ErrorBoundaryState := mkState {
  hasError : bool;
  error : option Error;
  errorInfo : option ErrorInfo
}.

(** [Partial<ErrorBoundaryState>]: an object literal holding some of the
    keys; [None] is a key the literal does not mention. *)
Record PartialState := mkPartial {
  set_hasError : option bool;
  set_error : option (option Error);
  set_errorInfo : option (option ErrorInfo)
}.

(** Reading [this.props.fallback]: a prop left out reads [undefined]. *)
Definition props_fallback (p : ErrorBoundaryProps) : ReactNode :=
  match fallback p with
  | Some f => f
  | None => RUndefined
  end.

(* --------------------------------------------------------------------- *)
(** *** What React provides to a class component *)
(* --------------------------------------------------------------------- *)

(** The shallow merge React applies for [setState(partial)] and for the
    object returned by [getDerivedStateFromError]: the keys present
    replace the old ones, the others stay. *)
Definition merge (s : ErrorBoundaryState) (u : PartialState)
  : ErrorBoundaryState :=
  {| hasError := match set_hasError u with Some b => b | None => hasError s end;
     error := match set_error u with Some e => e | None => error s end;
     errorInfo :=
       match set_errorInfo u with Some i => i | None => errorInfo s end |}.

(** A call that leaves the component. *)
Inductive Event :=
| ConsoleError (label : string) (e : option Error) (info : ErrorInfo)
| OnErrorCall (e : option Error) (info : ErrorInfo).

(** What an instance method can change: the state of the instance, as it
    is once the updates the method has queued are applied, and the trace
    of outside calls, oldest first. *)
Record World := mkWorld {
  this_state : ErrorBoundaryState;
  trace : list Event
}.

(** Instance methods: state passing over [World], with exceptions. *)
Definition M (A : Type) : Type := World -> Completion A * World.

Definition ret {A} (a : A) : M A := fun w => (Normal a, w).

Definition bind {A B} (m : M A) (k : A -> M B) : M B :=
  fun w =>
    match m w with
    | (Normal a, w') => k a w'
    | (Throw exn, w') => (Throw exn, w')
    end.

Notation "m1 ;; m2" := (bind m1 (fun _ => m2))
  (at level 61, right associativity).

Definition when (b : bool) (m : M unit) : M unit :=
  if b then m else ret tt.

(** [this.setState(partial)].  React queues the update and applies it
    after the method has returned.  No method of the class reads
    [this.state] after calling [setState], so the world holds the state
    with the update already merged; what React does with a queued update
    when the method throws instead of returning is in [react_commit]. *)
Definition this_setState (u : PartialState) : M unit :=
  fun w => (Normal tt, {| this_state := merge (this_state w) u;
                          trace := trace w |}).

(** [console.error(label, error, errorInfo)]. *)
Definition console_error (label : string) (e : option Error)
           (info : ErrorInfo) : M unit :=
  fun w => (Normal tt, {| this_state := this_state w;
                          trace := trace w ++ [ConsoleError label e info] |}).

(** Calling the [onError] prop: the call is recorded, and completes the
    way the callback does. *)
Definition call_onError (cb : option Error -> ErrorInfo -> Completion unit)
           (e : option Error) (info : ErrorInfo) : M unit :=
  fun w => (cb e info, {| this_state := this_state w;
                          trace := trace w ++ [OnErrorCall e info] |}).

(* --------------------------------------------------------------------- *)
(** *** The methods of the class *)
(* --------------------------------------------------------------------- *)

(** The state the constructor assigns. *)
Definition constructor (_ : ErrorBoundaryProps) : ErrorBoundaryState :=
  {| hasError := false; error := None; errorInfo := None |}.

(** [static getDerivedStateFromError(error)]: the argument is stored as
    it comes, [null] included. *)
Definition getDerivedStateFromError (e : option Error) : PartialState :=
  {| set_hasError := Some true;
     set_error := Some e;
     set_errorInfo := None |}.

(** [componentDidCatch(error, errorInfo)]. *)
Definition componentDidCatch (env : ImportMetaEnv) (props : ErrorBoundaryProps)
           (e : option Error) (info : ErrorInfo) : M unit :=
  when (DEV env) (console_error "ErrorBoundary caught an error:" e info) ;;
  this_setState {| set_hasError := None;
                   set_error := Some e;
                   set_errorInfo := Some (Some info) |} ;;
  match onError props with
  | Some cb => call_onError cb e info
  | None => ret tt
  end ;;
  when (PROD env) (ret tt).

(** [handleReset = () => { this.setState({...}) }]. *)
Definition handleReset : M unit :=
  this_setState {| set_hasError := Some false;
                   set_error := Some None;
                   set_errorInfo := Some None |}.

(** Running a handler attached to the markup. *)
Definition run_handler (h : Handler) : M unit :=
  match h with
  | HandleReset => handleReset
  end.

(* --------------------------------------------------------------------- *)
(** *** [render]: the built-in recovery view, piece by piece *)
(* --------------------------------------------------------------------- *)

Definition el (tag : string) (attrs : list (string * Attr))
           (kids : list ReactNode) : ReactNode :=
  RElement (Host tag) attrs kids.

(** [<Link to=... >] of react-router-dom. *)
Definition Link (attrs : list (string * Attr)) (kids : list ReactNode)
  : ReactNode :=
  RElement (Comp "Link") attrs kids.

(** Decorative Forest Element *)
Definition forestDecoration : ReactNode :=
  el "div" [("className", AStyle "forestDecoration"); ("aria-hidden", AStr "true")]
    [el "svg" [("viewBox", AStr "0 0 200 120"); ("className", AStyle "treeSvg")]
       [el "path" [("d", AStr "M100 10 L130 50 L115 50 L140 90 L60 90 L85 50 L70 50 Z");
                   ("fill", AStr "currentColor"); ("opacity", AStr "0.3")] [];
        el "rect" [("x", AStr "95"); ("y", AStr "90"); ("width", AStr "10");
                   ("height", AStr "20"); ("fill", AStr "currentColor");
                   ("opacity", AStr "0.4")] [];
        el "path" [("d", AStr "M60 25 L80 55 L70 55 L90 85 L30 85 L50 55 L40 55 Z");
                   ("fill", AStr "currentColor"); ("opacity", AStr "0.2")] [];
        el "rect" [("x", AStr "56"); ("y", AStr "85"); ("width", AStr "8");
                   ("height", AStr "15"); ("fill", AStr "currentColor");
                   ("opacity", AStr "0.3")] [];
        el "path" [("d", AStr "M150 30 L170 60 L160 60 L175 85 L125 85 L140 60 L130 60 Z");
                   ("fill", AStr "currentColor"); ("opacity", AStr "0.25")] [];
        el "rect" [("x", AStr "147"); ("y", AStr "85"); ("width", AStr "7");
                   ("height", AStr "12"); ("fill", AStr "currentColor");
                   ("opacity", AStr "0.35")] []]].

(** Error Icon *)
Definition errorIcon : ReactNode :=
  el "div" [("className", AStyle "errorIcon"); ("aria-hidden", AStr "true")]
    [el "svg" [("viewBox", AStr "0 0 24 24"); ("width", AStr "64");
               ("height", AStr "64"); ("fill", AStr "none");
               ("stroke", AStr "currentColor"); ("strokeWidth", AStr "2")]
       [el "circle" [("cx", AStr "12"); ("cy", AStr "12"); ("r", AStr "10")] [];
        el "line" [("x1", AStr "12"); ("y1", AStr "8"); ("x2", AStr "12");
                   ("y2", AStr "12")] [];
        el "line" [("x1", AStr "12"); ("y1", AStr "16"); ("x2", AStr "12.01");
                   ("y2", AStr "16")] []]].

(** Error Title *)
Definition errorTitle : ReactNode :=
  el "h1" [("id", AStr "error-title"); ("className", AStyle "title")]
    [RString "Something Went Wrong"].

(** Error Message *)
Definition errorMessage : ReactNode :=
  el "p" [("className", AStyle "description")]
    [RString "We encountered an unexpected error while loading this page.";
     el "br" [] [];
     RString "Don't worry, our team has been notified and we're working to fix it."].

(** The attributes the 20x20 stroke icons of the two buttons share. *)
Definition icon20 : list (string * Attr) :=
  [("viewBox", AStr "0 0 24 24"); ("width", AStr "20"); ("height", AStr "20");
   ("fill", AStr "none"); ("stroke", AStr "currentColor");
   ("strokeWidth", AStr "2")].

(** The retry action: [<button onClick={this.handleReset}>]. *)
Definition retryButton : ReactNode :=
  el "button" [("onClick", AHandler HandleReset);
               ("className", AStyle "primaryButton")]
    [el "span" [] [RString "Try Again"];
     el "svg" icon20
       [el "path" [("d", AStr "M1 4v6h6M23 20v-6h-6")] [];
        el "path" [("d", AStr "M20.49 9A9 9 0 0 0 5.64 5.64L1 10m22 4l-4.64 4.36A9 9 0 0 1 3.51 15")] []]].

Definition homeLink : ReactNode :=
  Link [("to", AStr "/"); ("className", AStyle "secondaryButton")]
    [el "span" [] [RString "Return Home"];
     el "svg" icon20
       [el "path" [("d", AStr "M3 12l2-2m0 0l7-7 7 7M5 10v10a1 1 0 001 1h3m10-11l2 2m-2-2v10a1 1 0 01-1 1h-3m-6 0a1 1 0 001-1v-4a1 1 0 011-1h2a1 1 0 011 1v4a1 1 0 001 1m-6 0h6")] []]].

(** Navigation Options *)
Definition navigation : ReactNode :=
  el "nav" [("className", AStyle "navigation");
            ("aria-label", AStr "Error page navigation")]
    [retryButton; homeLink].

(** Helpful Links *)
Definition helpfulLinks : ReactNode :=
  el "div" [("className", AStyle "helpfulLinks")]
    [el "p" [("className", AStyle "helpfulText")] [RString "Or try visiting:"];
     el "ul" [("className", AStyle "linkList")]
       [el "li" [] [Link [("to", AStr "/people-for-the-planet")]
                         [RString "People for the Planet"]];
        el "li" [] [Link [("to", AStr "/business-for-the-planet")]
                         [RString "Business for the Planet"]];
        el "li" [] [Link [("to", AStr "/about")] [RString "About Us"]]]].

(** Contact Support *)
Definition support : ReactNode :=
  el "p" [("className", AStyle "support")]
    [RString "Need help? Contact us at";
     RString " ";
     el "a" [("href", AStr "mailto:connect@sacredgroves.earth")]
       [RString "connect@sacredgroves.earth"]].

(** The [<details>] element of the error details, given the two values
    its [<pre>] interpolates. *)
Definition detailsPanel (text : string) (stack : option string) : ReactNode :=
  el "details" [("className", AStyle "errorDetails")]
    [el "summary" [("className", AStyle "errorSummary")]
       [RString "Error Details (Development Only)"];
     el "div" [("className", AStyle "errorContent")]
       [el "pre" [("className", AStyle "errorStack")]
          [RString text; child_of_opt stack]]].

(** Error Details (only in development):
    [import.meta.env.DEV && this.state.error && (<details>...)].
    [a && b] is [a] when [a] is falsy, so the child is [false] outside
    development and [null] when no error is stored; only otherwise is
    the element built, which calls [this.state.error.toString()] and
    reads [this.state.errorInfo?.componentStack]. *)
Definition errorDetails (env : ImportMetaEnv) (s : ErrorBoundaryState)
  : Completion ReactNode :=
  if negb (DEV env) then Normal (RBool false)
  else if negb (truthy_ref (error s)) then Normal RNull
  else
    bindC (call_toString (error s)) (fun text =>
    Normal (detailsPanel text (opt_componentStack (errorInfo s)))).

(** Default fallback UI matching the site theme, around the value of the
    error-details expression. *)
Definition defaultFallback (details : ReactNode) : ReactNode :=
  el "section" [("className", AStyle "container");
                ("aria-labelledby", AStr "error-title")]
    [el "div" [("className", AStyle "content")]
       [forestDecoration; errorIcon; errorTitle; errorMessage; navigation;
        helpfulLinks; support; details]].

(** [render()]. *)
Definition render (env : ImportMetaEnv) (props : ErrorBoundaryProps)
           (s : ErrorBoundaryState) : Completion ReactNode :=
  if hasError s then
    if truthy (props_fallback props) then Normal (props_fallback props)
    else bindC (errorDetails env s) (fun details =>
         Normal (defaultFallback details))
  else Normal (children props).

(* --------------------------------------------------------------------- *)
(** *** How React drives an error boundary *)
(* --------------------------------------------------------------------- *)

(** When a descendant throws while it renders, React merges the object
    returned by the static hook into the state; the boundary's next
    render sees the merged state.  [e] is the thrown value. *)
Definition react_derive (e : option Error) (w : World) : World :=
  {| this_state := merge (this_state w) (getDerivedStateFromError e);
     trace := trace w |}.

(** What React makes of a method run from the world [w]: when the method
    returned, its queued updates are applied; when it threw, they never
    are, and the state stays what it was before the call.  The outside
    calls made up to the throw have happened either way. *)
Definition react_commit (w : World) (r : Completion unit * World)
  : Completion unit * World :=
  match fst r with
  | Normal _ => r
  | Throw exn =>
      (Throw exn, {| this_state := this_state w; trace := trace (snd r) |})
  end.

(** One capture: the static hook in the render phase, then
    [componentDidCatch] with the same value in the commit that follows. *)
Definition capture (env : ImportMetaEnv) (props : ErrorBoundaryProps)
           (e : option Error) (info : ErrorInfo) (w : World)
  : Completion unit * World :=
  react_commit (react_derive e w)
               (componentDidCatch env props e info (react_derive e w)).

(** Where the boundary stands between two events: at rest; between the
    static hook and the commit for the thrown value [e]; gone because an
    exception left [componentDidCatch]; or gone because the tree it
    returned after the static hook failed to render, which the boundary
    that has just caught cannot catch again. *)
Inductive Phase :=
| Settled
| Catching (e : option Error)
| Escaped (exn : Error)
| TreeFailed (thrown : option Error).

Record Boundary := mkBoundary { world : World; phase : Phase }.

(** What can happen to a mounted boundary. *)
Inductive Label :=
| LThrow (e : option Error)    (* a descendant throws while rendering *)
| LCommit (info : ErrorInfo)   (* React commits the caught error *)
| LClick (h : Handler)         (* the user clicks an element of the output *)
| LTreeThrows (thrown : option Error).  (* the tree returned after the
                                          static hook throws as React
                                          renders it *)

Definition mount (props : ErrorBoundaryProps) : Boundary :=
  {| world := {| this_state := constructor props; trace := [] |};
     phase := Settled |}.

(** The boundary after a method run from the world [w]. *)
Definition settle (w : World) (r : Completion unit * World) : Boundary :=
  {| world := snd (react_commit w r);
     phase := match fst r with
              | Normal _ => Settled
              | Throw exn => Escaped exn
              end |}.

(** A click reaches a handler only if the rendered output carries it. *)
Definition offers (env : ImportMetaEnv) (props : ErrorBoundaryProps)
           (s : ErrorBoundaryState) (h : Handler) : bool :=
  match render env props s with
  | Normal out => exists_node (has_handler "onClick" h) out
  | Throw _ => false
  end.

Definition step (env : ImportMetaEnv) (props : ErrorBoundaryProps)
           (b : Boundary) (l : Label) : option Boundary :=
  match phase b, l with
  | Settled, LThrow e =>
      Some {| world := react_derive e (world b); phase := Catching e |}
  | Catching e, LCommit info =>
      Some (settle (world b) (componentDidCatch env props e info (world b)))
  | Catching _, LTreeThrows thrown =>
      Some {| world := world b; phase := TreeFailed thrown |}
  | Settled, LClick h =>
      if offers env props (this_state (world b)) h
      then Some (settle (world b) (run_handler h (world b)))
      else None
  | _, _ => None
  end.

(** A run: the events in order, each with the props current at the time. *)
Fixpoint run (env : ImportMetaEnv) (b : Boundary)
         (evs : list (ErrorBoundaryProps * Label)) : option Boundary :=
  match evs with
  | [] => Some b
  | (props, l) :: rest =>
      match step env props b l with
      | Some b' => run env b' rest
      | None => None
      end
  end.

Definition reachable (env : ImportMetaEnv) (b : Boundary) : Prop :=
  exists props evs, run env (mount props) evs = Some b.

(** The callback, when there is one, returns normally on every call. *)
Definition onError_returns (props : ErrorBoundaryProps) : Prop :=
  match onError props with
  | Some cb => forall e info, cb e info = Normal tt
  | None => True
  end.

(** The data-model invariant of the spec. *)
Definition state_consistent (s : ErrorBoundaryState) : Prop :=
  hasError s = true <-> error s <> None.

(** The event is not a [throw null]. *)
Definition throws_object (l : Label) : Prop :=
  match l with
  | LThrow None => False
  | _ => True
  end.

(** The diagnostic panel in a rendered tree. *)
Definition is_diagnostic_panel (n : ReactNode) : bool :=
  is_host "details" n && has_class "errorDetails" n.

Definition count_onError (t : list Event) : nat :=
  List.length (filter (fun ev => match ev with
                            | OnErrorCall _ _ => true
                            | ConsoleError _ _ _ => false
                            end) t).

(** The two build configurations. *)
Definition development : ImportMetaEnv := {| DEV := true; PROD := false |}.
Definition production : ImportMetaEnv := {| DEV := false; PROD := true |}.

End ErrorBoundary.
Import ErrorBoundary.

(* ===================================================================== *)
(** ** The application shell: src/App.tsx *)
(* ===================================================================== *)

Module Application.

(** What the nodes written between the tags of an element become in its
    [children] prop: nothing is [undefined], one node is itself, several
    are an array. *)
Definition jsx_children (kids : list ReactNode) : ReactNode :=
  match kids with
  | [] => RUndefined
  | [k] => k
  | _ => RFragment kids
  end.

(** [<Routes />], from the routes module. *)
Definition Routes : ReactNode := RElement (Comp "Routes") [] [].

(** [<HelmetProvider>...</HelmetProvider>] of react-helmet-async. *)
Definition HelmetProvider (kids : list ReactNode) : ReactNode :=
  RElement (Comp "HelmetProvider") [] kids.

(** [function App()]: the boundary around the provider around the
    routes. *)
Definition App : ReactNode :=
  RElement (Comp "ErrorBoundary") [] [HelmetProvider [Routes]].

(** The props the boundary of [App] receives: the element carries no
    attribute, so [fallback] and [onError] are left out. *)
Definition App_boundary_props : ErrorBoundaryProps :=
  {| children := jsx_children [HelmetProvider [Routes]];
     fallback := None;
     onError := None |}.

End Application.
Import Application.

(* ===================================================================== *)
(** ** Measures on traces, runs and markup *)
(* ===================================================================== *)

Module Observe.

Definition count_console (t : list Event) : nat :=
  List.length (filter (fun ev => match ev with
                                 | ConsoleError _ _ _ => true
                                 | OnErrorCall _ _ => false
                                 end) t).

Definition is_commit (l : Label) : bool :=
  match l with
  | LCommit _ => true
  | _ => false
  end.

(** The commits of a run. *)
Definition commits (evs : list (ErrorBoundaryProps * Label)) : nat :=
  List.length (filter (fun pe => is_commit (snd pe)) evs).

(** The commits of a run made while an [onError] prop was supplied. *)
Definition reported_commits (evs : list (ErrorBoundaryProps * Label)) : nat :=
  List.length (filter (fun pe => is_commit (snd pe)
                                 && truthy_ref (onError (fst pe))) evs).

(** The values of the attribute [key] in a tree, in document order. *)
Fixpoint attr_values (key : string) (n : ReactNode) : list Attr :=
  match n with
  | RElement _ attrs kids =>
      (match attr_of key attrs with
       | Some v => [v]
       | None => []
       end)
      ++ flat_map (attr_values key) kids
  | RFragment items => flat_map (attr_values key) items
  | _ => []
  end.

(** The handlers attached anywhere in a tree, in document order. *)
Fixpoint handlers_of (n : ReactNode) : list (string * Handler) :=
  match n with
  | RElement _ attrs kids =>
      flat_map (fun kv => match snd kv with
                          | AHandler h => [(fst kv, h)]
                          | _ => []
                          end) attrs
      ++ flat_map handlers_of kids
  | RFragment items => flat_map handlers_of items
  | _ => []
  end.

(** A caller's fallback that is rendered (truthy) and does not carry the
    boundary's reset handler. *)
Definition inert_fallback (props : ErrorBoundaryProps) : Prop :=
  truthy (props_fallback props) = true
  /\ exists_node (has_handler "onClick" HandleReset) (props_fallback props)
     = false.

(** The state with its error and descriptor blanked. *)
Definition redact (s : ErrorBoundaryState) : ErrorBoundaryState :=
  {| hasError := hasError s; error := None; errorInfo := None |}.

End Observe.
Import Observe.

(* ===================================================================== *)
(** ** Concrete inputs used by the examples below *)
(* ===================================================================== *)

Module Samples.

Definition x_failed : Error := mkError "Error" "X failed".

Definition at_thrower : ErrorInfo := mkErrorInfo (Some " at Thrower").

Definition app : ReactNode := el "main" [] [RString "app"].

Definition oops : ReactNode := el "p" [] [RString "Oops"].

Definition report : option Error -> ErrorInfo -> Completion unit :=
  fun _ _ => Normal tt.

(** A callback that fails. *)
Definition failing : option Error -> ErrorInfo -> Completion unit :=
  fun _ _ => Throw (mkError "Error" "report failed").

(** [<ErrorBoundary>app</ErrorBoundary>], as in App.tsx. *)
Definition plain : ErrorBoundaryProps :=
  {| children := app; fallback := None; onError := None |}.

(** [<ErrorBoundary onError={report}>app</ErrorBoundary>]. *)
Definition reporting : ErrorBoundaryProps :=
  {| children := app; fallback := None; onError := Some report |}.

(** [<ErrorBoundary fallback={<p>Oops</p>}>app</ErrorBoundary>]. *)
Definition with_oops : ErrorBoundaryProps :=
  {| children := app; fallback := Some oops; onError := None |}.

(** [<ErrorBoundary fallback={null}>app</ErrorBoundary>]: the caller asks
    for nothing to be shown in place of a failed subtree. *)
Definition with_null : ErrorBoundaryProps :=
  {| children := app; fallback := Some RNull; onError := None |}.

(** [<ErrorBoundary fallback={0}>app</ErrorBoundary>]. *)
Definition with_zero : ErrorBoundaryProps :=
  {| children := app; fallback := Some (RNumber 0); onError := None |}.

(** The state after [getDerivedStateFromError(x_failed)] on a fresh
    instance. *)
Definition derived : ErrorBoundaryState :=
  this_state (react_derive (Some x_failed) (world (mount plain))).

(** [<ErrorBoundary onError={failing}>app</ErrorBoundary>]. *)
Definition badly_reporting : ErrorBoundaryProps :=
  {| children := app; fallback := None; onError := Some failing |}.

(** The state after the capture of a [throw null]. *)
Definition caught_null : ErrorBoundaryState :=
  {| hasError := true; error := None; errorInfo := Some at_thrower |}.

(** The state after the whole capture of [x_failed]. *)
Definition caught : ErrorBoundaryState :=
  {| hasError := true; error := Some x_failed; errorInfo := Some at_thrower |}.

End Samples.

(* ===================================================================== *)
(** ** Properties *)
(* ===================================================================== *)

Section Basics.

Variable env : ImportMetaEnv.
Variable props : ErrorBoundaryProps.


(** [render] looks at nothing but the props once [hasError] is false. *)
Lemma render_children (s : ErrorBoundaryState) :
  hasError s = false -> render env props s = Normal (children props).
Proof.
  intros H. unfold render. now rewrite H.
Qed.

(** [handleReset] writes all three keys, so the old state is forgotten. *)
Lemma handleReset_run (w : World) :
  handleReset w =
  (Normal tt, {| this_state := constructor props; trace := trace w |}).
Proof. reflexivity. Qed.

(** With an error stored, the error-details expression is [false] or the
    panel; without one it is [false] or [null]. *)
Lemma errorDetails_some (s : ErrorBoundaryState) (e : Error) :
  error s = Some e ->
  errorDetails env s =
  Normal (if DEV env
          then detailsPanel (Error_toString e)
                            (opt_componentStack (errorInfo s))
          else RBool false).
Proof.
  intros H. unfold errorDetails. rewrite H.
  destruct (DEV env); reflexivity.
Qed.

Lemma errorDetails_none (s : ErrorBoundaryState) :
  error s = None ->
  errorDetails env s = Normal (if DEV env then RNull else RBool false).
Proof.
  intros H. unfold errorDetails. rewrite H.
  destruct (DEV env); reflexivity.
Qed.

Lemma errorDetails_total (s : ErrorBoundaryState) :
  exists d, errorDetails env s = Normal d.
Proof.
  destruct (error s) as [e|] eqn:He.
  - rewrite (errorDetails_some s e He). eauto.
  - rewrite (errorDetails_none s He). eauto.
Qed.

(** The state the commit hook asks for: [hasError] as it was, the thrown
    value and its descriptor stored; the request is made whatever the
    callback does, since [setState] comes first. *)
Lemma componentDidCatch_state (e : option Error) (info : ErrorInfo)
      (w : World) :
  this_state (snd (componentDidCatch env props e info w)) =
  {| hasError := hasError (this_state w);
     error := e;
     errorInfo := Some info |}.
Proof.
  unfold componentDidCatch, bind, when, call_onError, console_error,
    this_setState, ret, merge.
  destruct (DEV env), (onError props) as [cb|]; simpl;
    try destruct (cb e info); simpl; destruct (PROD env); reflexivity.
Qed.

(** The outside calls of the commit hook: the development log, then the
    callback when there is one. *)
Lemma componentDidCatch_trace (e : option Error) (info : ErrorInfo)
      (w : World) :
  trace (snd (componentDidCatch env props e info w)) =
  (trace w
   ++ (if DEV env
       then [ConsoleError "ErrorBoundary caught an error:" e info] else [])
   ++ match onError props with
      | Some _ => [OnErrorCall e info]
      | None => []
      end)%list.
Proof.
  unfold componentDidCatch, bind, when, call_onError, console_error,
    this_setState, ret.
  destruct (DEV env), (onError props) as [cb|]; simpl;
    try destruct (cb e info); simpl; destruct (PROD env); simpl;
    rewrite <- ?app_assoc, ?app_nil_r; reflexivity.
Qed.

(** No statement of the hook throws: it completes the way the callback
    does, and normally when there is none. *)
Lemma componentDidCatch_completion (e : option Error) (info : ErrorInfo)
      (w : World) :
  fst (componentDidCatch env props e info w) =
  match onError props with
  | Some cb => cb e info
  | None => Normal tt
  end.
Proof.
  unfold componentDidCatch, bind, when, call_onError, console_error,
    this_setState, ret.
  destruct (DEV env), (onError props) as [cb|]; simpl;
    try (destruct (cb e info) as [[]|exn]); simpl;
    destruct (PROD env); reflexivity.
Qed.

(** React's side of a method run keeps the completion and the outside
    calls of the method. *)
Lemma react_commit_fst (w : World) (r : Completion unit * World) :
  fst (react_commit w r) = fst r.
Proof.
  unfold react_commit. now destruct (fst r) eqn:F.
Qed.

Lemma react_commit_trace (w : World) (r : Completion unit * World) :
  trace (snd (react_commit w r)) = trace (snd r).
Proof.
  unfold react_commit. now destruct (fst r).
Qed.

(** The state after a method run: the one the method asked for when it
    returned, the one before the call when it threw. *)
Lemma react_commit_state (w : World) (r : Completion unit * World) :
  this_state (snd (react_commit w r)) =
  match fst r with
  | Normal _ => this_state (snd r)
  | Throw _ => this_state w
  end.
Proof.
  unfold react_commit. now destruct (fst r).
Qed.

(** The state after a whole capture. *)
Lemma capture_state (e : option Error) (info : ErrorInfo) (w : World) :
  this_state (snd (capture env props e info w)) =
  {| hasError := true;
     error := e;
     errorInfo := match fst (capture env props e info w) with
                  | Normal _ => Some info
                  | Throw _ => errorInfo (this_state w)
                  end |}.
Proof.
  unfold capture. rewrite react_commit_state, react_commit_fst.
  destruct (fst (componentDidCatch env props e info (react_derive e w)));
    [now rewrite componentDidCatch_state | reflexivity].
Qed.

End Basics.

(* --------------------------------------------------------------------- *)
(** *** Pass-through and reset *)
(* --------------------------------------------------------------------- *)

(** C4.  In every state in which no failure has been captured
    ([hasError] false), whatever the build flags and the other props,
    [render] returns the [children] prop itself and nothing else. *)
Theorem render_pass_through
        (env : ImportMetaEnv) (props : ErrorBoundaryProps)
        (s : ErrorBoundaryState) :
  hasError s = false ->
  render env props s = Normal (children props).
Proof.
  apply render_children.
Qed.

Lemma render_pass_through_witness :
  hasError (constructor Samples.with_oops) = false /\
  render development Samples.with_oops (constructor Samples.with_oops)
  = Normal Samples.app.
Proof.
  split; [reflexivity |].
  apply (render_pass_through development Samples.with_oops
           (constructor Samples.with_oops)).
  reflexivity.
Defined.

(** C8.  The reset action is a constant function on the state: from any
    world it completes normally and leaves the constructor's state
    ([hasError] false, [error] null, [errorInfo] null) without touching
    the trace; running it twice is running it once; on the initial state
    it changes nothing. *)
Theorem handleReset_constant_idempotent :
  (forall props w,
      handleReset w =
      (Normal tt, {| this_state := constructor props; trace := trace w |}))
  /\ (forall w,
      this_state (snd (handleReset w)) =
      {| hasError := false; error := None; errorInfo := None |})
  /\ (forall w,
      snd (handleReset (snd (handleReset w))) = snd (handleReset w))
  /\ (forall props t,
      snd (handleReset {| this_state := constructor props; trace := t |}) =
      {| this_state := constructor props; trace := t |}).
Proof.
  repeat split.
Qed.

(** While the built-in view is shown, a click on its retry button is
    delivered to [handleReset]; the boundary is back in its initial
    state. *)
Lemma retry_click_resets
      (env : ImportMetaEnv) (props : ErrorBoundaryProps) (w : World) :
  hasError (this_state w) = true ->
  truthy (props_fallback props) = false ->
  step env props {| world := w; phase := Settled |} (LClick HandleReset) =
  Some {| world := {| this_state := constructor props; trace := trace w |};
          phase := Settled |}.
Proof.
  intros H T. unfold step, offers, render. cbn [phase world].
  rewrite H, T.
  destruct (errorDetails_total env (this_state w)) as [d ->].
  reflexivity.
Qed.

(** C3.  After a capture (static hook, then commit hook) the state holds
    the thrown value, an error or null; running the retry handler from
    there completes normally and leaves exactly the constructor's state,
    and the next render, with whatever props are then current, returns
    the [children] prop alone: nothing of the fallback is left. *)
Theorem retry_restores_children
        (env : ImportMetaEnv) (props props' : ErrorBoundaryProps)
        (e : option Error) (info : ErrorInfo) (w : World) :
  let caught := snd (capture env props e info w) in
  let retried := run_handler HandleReset caught in
  hasError (this_state caught) = true
  /\ error (this_state caught) = e
  /\ fst retried = Normal tt
  /\ this_state (snd retried) = constructor props'
  /\ render env props' (this_state (snd retried)) = Normal (children props').
Proof.
  cbv zeta. rewrite capture_state.
  repeat split.
Qed.

(* --------------------------------------------------------------------- *)
(** *** Rendering never fails *)
(* --------------------------------------------------------------------- *)

(** Why the guards matter: on a null reference the method call and the
    plain property read throw, the optional chain does not. *)
Remark null_reference_reads :
  call_toString None = Throw (TypeError_null "toString")
  /\ get_componentStack None = Throw (TypeError_null "componentStack")
  /\ opt_componentStack None = None.
Proof. repeat split. Qed.

(** C9.  [render] completes normally in every state, in particular in the
    state the static hook leaves on a fresh instance, where [errorInfo]
    is still null; and with a null [error] the error-details expression
    is the falsy operand itself ([false] or [null]), so [toString] is
    never called on null. *)
Theorem render_total :
  (forall env props s, exists out, render env props s = Normal out)
  /\ (forall env props e,
        let s := this_state (react_derive e (world (mount props))) in
        errorInfo s = None /\ exists out, render env props s = Normal out)
  /\ (forall env flag info,
        errorDetails env {| hasError := flag; error := None;
                            errorInfo := info |}
        = Normal (if DEV env then RNull else RBool false)).
Proof.
  assert (T : forall env props s, exists out, render env props s = Normal out).
  { intros env props s. unfold render.
    destruct (hasError s); [| eauto].
    destruct (truthy (props_fallback props)); [eauto |].
    destruct (errorDetails_total env s) as [d ->]. simpl. eauto. }
  split; [exact T | split].
  - intros env props e. cbv zeta. split; [reflexivity | apply T].
  - intros env flag info. now apply errorDetails_none.
Qed.

(* --------------------------------------------------------------------- *)
(** *** What is shown after a failure *)
(* --------------------------------------------------------------------- *)

(** The built-in view has its fixed parts whatever the value of the
    error-details expression. *)
Lemma defaultFallback_parts (details : ReactNode) :
  exists_node (has_class "errorIcon") (defaultFallback details) = true
  /\ exists_node (has_class "description") (defaultFallback details) = true
  /\ exists_node (fun n => is_host "button" n
                           && has_handler "onClick" HandleReset n)
                 (defaultFallback details) = true
  /\ exists_node (is_comp "Link") (defaultFallback details) = true.
Proof. repeat split. Qed.

(** A truthy [fallback] prop wins over everything else in the error
    state. *)
Lemma render_truthy_fallback
      (env : ImportMetaEnv) (props : ErrorBoundaryProps)
      (s : ErrorBoundaryState) :
  hasError s = true ->
  truthy (props_fallback props) = true ->
  render env props s = Normal (props_fallback props).
Proof.
  intros H T. unfold render. now rewrite H, T.
Qed.

(** Without a truthy [fallback], the error state renders the built-in
    view around the error-details expression. *)
Lemma render_default
      (env : ImportMetaEnv) (props : ErrorBoundaryProps)
      (s : ErrorBoundaryState) :
  hasError s = true ->
  truthy (props_fallback props) = false ->
  render env props s =
  Normal (defaultFallback
            (if DEV env
             then match error s with
                  | Some e => detailsPanel (Error_toString e)
                                (opt_componentStack (errorInfo s))
                  | None => RNull
                  end
             else RBool false)).
Proof.
  intros H T. unfold render. rewrite H, T.
  destruct (error s) as [e|] eqn:E.
  - now rewrite (errorDetails_some env s e E).
  - now rewrite (errorDetails_none env s E).
Qed.

(** C1, as stated, at [fallback={0}] and at [fallback={null}]: a
    fallback is supplied, a descendant throws, and the next render is not
    that fallback (it is the built-in view). *)
Lemma supplied_falsy_fallback_not_shown :
  (fallback Samples.with_zero = Some (RNumber 0)
   /\ render development Samples.with_zero
             (this_state (react_derive (Some Samples.x_failed)
                                       (world (mount Samples.with_zero))))
      <> Normal (RNumber 0))
  /\ (fallback Samples.with_null = Some RNull
      /\ render development Samples.with_null
                (this_state (react_derive (Some Samples.x_failed)
                                          (world (mount Samples.with_null))))
         <> Normal RNull).
Proof.
  split; (split; [reflexivity | vm_compute; discriminate]).
Qed.

(** C1, amended.  When a descendant throws during render, whatever it
    throws, the boundary's next render (on the state merged from the
    static hook) returns the [fallback] prop if it is truthy, and
    otherwise (prop left out, or null, undefined, false, 0 or the empty
    string) the built-in recovery view, which contains the error icon,
    the message, a button wired to the retry handler and the four router
    links (home and three fixed pages). *)
Theorem fallback_after_throw
        (env : ImportMetaEnv) (props : ErrorBoundaryProps)
        (e : option Error) (w : World) :
  let s := this_state (react_derive e w) in
  let builtin :=
    defaultFallback
      (if DEV env
       then match e with
            | Some err =>
                detailsPanel (Error_toString err)
                             (opt_componentStack (errorInfo (this_state w)))
            | None => RNull
            end
       else RBool false) in
  render env props s =
  Normal (if truthy (props_fallback props)
          then props_fallback props
          else builtin)
  /\ exists_node (has_class "errorIcon") builtin = true
  /\ exists_node (has_class "description") builtin = true
  /\ exists_node (fun n => is_host "button" n
                           && has_handler "onClick" HandleReset n)
                 builtin = true
  /\ link_targets builtin =
     ["/"; "/people-for-the-planet"; "/business-for-the-planet"; "/about"].
Proof.
  cbv zeta. split.
  - destruct (truthy (props_fallback props)) eqn:T.
    + now apply render_truthy_fallback.
    + now rewrite (render_default env props (this_state (react_derive e w))
                     eq_refl T).
  - repeat split; try apply defaultFallback_parts.
    destruct (DEV env); [| reflexivity].
    destruct e; [| reflexivity].
    destruct (opt_componentStack (errorInfo (this_state w))); reflexivity.
Qed.

(** C10, as stated, at [fallback={0}]: a fallback is supplied, an error
    has been captured, and the output is not that fallback. *)
Lemma supplied_zero_fallback_not_rendered :
  fallback Samples.with_zero = Some (RNumber 0)
  /\ hasError Samples.caught = true
  /\ render production Samples.with_zero Samples.caught
     <> Normal (RNumber 0).
Proof.
  split; [reflexivity | split; [reflexivity |]].
  vm_compute. discriminate.
Qed.

(** C10, amended.  Whenever a truthy [fallback] prop is supplied and an
    error has been captured, [render] returns exactly that prop, under
    any build flags: the built-in view and its development-only panel
    are not built.  A supplied fallback that is falsy (null, undefined,
    false, 0, the empty string) is treated as absent: the output is the
    one the same props without the fallback give, the built-in view. *)
Theorem custom_fallback_exact
        (env : ImportMetaEnv) (props : ErrorBoundaryProps)
        (s : ErrorBoundaryState) (f : ReactNode) :
  fallback props = Some f ->
  hasError s = true ->
  if truthy f
  then render env props s = Normal f
  else render env props s =
       render env {| children := children props;
                     fallback := None;
                     onError := onError props |} s
       /\ exists details,
            render env props s = Normal (defaultFallback details).
Proof.
  intros F H.
  assert (P : props_fallback props = f) by (unfold props_fallback; now rewrite F).
  destruct (truthy f) eqn:T.
  - rewrite <- P in T |- *. now apply render_truthy_fallback.
  - rewrite <- P in T. split.
    + rewrite (render_default env props s H T).
      now rewrite (render_default env
                     {| children := children props; fallback := None;
                        onError := onError props |} s H eq_refl).
    + eexists. now apply render_default.
Qed.

Lemma custom_fallback_exact_witness :
  render development Samples.with_oops Samples.caught = Normal Samples.oops
  /\ (render development Samples.with_zero Samples.caught =
      render development Samples.plain Samples.caught
      /\ exists details,
           render development Samples.with_zero Samples.caught
           = Normal (defaultFallback details)).
Proof.
  split.
  - apply (custom_fallback_exact development Samples.with_oops Samples.caught
             Samples.oops); reflexivity.
  - apply (custom_fallback_exact development Samples.with_zero Samples.caught
             (RNumber 0)); reflexivity.
Defined.

(* --------------------------------------------------------------------- *)
(** *** The development-only diagnostic panel *)
(* --------------------------------------------------------------------- *)



(** The panel of the first fallback render, before the commit hook has
    stored the component stack, shows the error text alone. *)
Remark panel_before_commit :
  render development Samples.plain Samples.derived
  = Normal (defaultFallback (detailsPanel "Error: X failed" None))
  /\ textContent (detailsPanel "Error: X failed" None)
     = "Error Details (Development Only)Error: X failed".
Proof. split; reflexivity. Qed.

(** After [throw null] the stored error is null, and the guard
    [this.state.error &&] leaves the panel out of the built-in view even
    in a development build. *)
Remark panel_omitted_for_null_error :
  this_state (snd (capture development Samples.plain None Samples.at_thrower
                           (world (mount Samples.plain))))
  = Samples.caught_null
  /\ exists out,
       render development Samples.plain Samples.caught_null = Normal out
       /\ exists_node is_diagnostic_panel out = false.
Proof.
  split; [reflexivity |]. eexists. split; reflexivity.
Qed.



(* --------------------------------------------------------------------- *)
(** *** Reporting *)
(* --------------------------------------------------------------------- *)

(** C2, as stated, in a development build: the capture makes two outside
    calls, the console log and then the callback, so the callback is not
    the only one. *)
Lemma development_capture_also_logs :
  onError Samples.reporting = Some Samples.report
  /\ trace (snd (capture development Samples.reporting
                         (Some Samples.x_failed)
                         Samples.at_thrower (world (mount Samples.reporting))))
     = [ConsoleError "ErrorBoundary caught an error:"
                     (Some Samples.x_failed) Samples.at_thrower;
        OnErrorCall (Some Samples.x_failed) Samples.at_thrower]
  /\ trace (snd (capture development Samples.reporting
                         (Some Samples.x_failed)
                         Samples.at_thrower (world (mount Samples.reporting))))
     <> [OnErrorCall (Some Samples.x_failed) Samples.at_thrower].
Proof.
  split; [reflexivity | split; [reflexivity | discriminate]].
Qed.

(** C2, amended.  One capture calls the [onError] prop, when supplied,
    exactly once, inside the commit hook, with the thrown value and the
    descriptor React passed; it is the last outside call of the capture,
    the only one when the development flag is off, and preceded by one
    [console.error] of the same two values when the flag is on.  Without
    the prop no callback call is made. *)
Theorem onError_called_once
        (env : ImportMetaEnv) (props : ErrorBoundaryProps)
        (e : option Error) (info : ErrorInfo) (w : World) :
  let w' := snd (capture env props e info w) in
  trace w' =
  (trace w
   ++ (if DEV env
       then [ConsoleError "ErrorBoundary caught an error:" e info] else [])
   ++ match onError props with
      | Some _ => [OnErrorCall e info]
      | None => []
      end)%list
  /\ count_onError (trace w') =
     count_onError (trace w)
     + match onError props with Some _ => 1 | None => 0 end.
Proof.
  cbv zeta. unfold capture.
  rewrite react_commit_trace, componentDidCatch_trace.
  split; [reflexivity |].
  unfold count_onError. rewrite !filter_app, !length_app.
  destruct (DEV env), (onError props); simpl; lia.
Qed.

(* --------------------------------------------------------------------- *)
(** *** Runs of a mounted boundary *)
(* --------------------------------------------------------------------- *)

(** What every event preserves: the state is consistent, and between the
    static hook and the commit the flag is already set. *)
Definition boundary_ok (b : Boundary) : Prop :=
  (hasError (this_state (world b)) = false ->
   error (this_state (world b)) = None)
  /\ forall e, phase b = Catching e ->
       hasError (this_state (world b)) = true
       /\ error (this_state (world b)) = e.

Lemma settle_not_catching (w : World) (r : Completion unit * World)
      (e : option Error) :
  phase (settle w r) <> Catching e.
Proof.
  unfold settle. simpl. destruct (fst r); discriminate.
Qed.

(** The state after the commit of the value [e]. *)
Lemma settle_commit_state (env : ImportMetaEnv) (props : ErrorBoundaryProps)
      (e : option Error) (info : ErrorInfo) (w : World) :
  this_state (world (settle w (componentDidCatch env props e info w))) =
  match fst (componentDidCatch env props e info w) with
  | Normal _ => {| hasError := hasError (this_state w);
                   error := e;
                   errorInfo := Some info |}
  | Throw _ => this_state w
  end.
Proof.
  unfold settle. cbn [world]. rewrite react_commit_state.
  destruct (fst (componentDidCatch env props e info w));
    [apply componentDidCatch_state | reflexivity].
Qed.

Lemma mount_ok (props : ErrorBoundaryProps) : boundary_ok (mount props).
Proof.
  split; [reflexivity | discriminate].
Qed.

Lemma step_ok (env : ImportMetaEnv) (props : ErrorBoundaryProps)
      (b b' : Boundary) (l : Label) :
  boundary_ok b -> step env props b l = Some b' -> boundary_ok b'.
Proof.
  intros [C P] S. unfold step in S.
  destruct (phase b) as [|e|exn|t] eqn:Ph, l as [e'|info|h|t'];
    try discriminate.
  - (* a descendant throws *)
    injection S as <-. split; cbn.
    + discriminate.
    + intros e0 F. injection F as <-. now split.
  - (* a click on an offered handler *)
    destruct (offers env props (this_state (world b)) h); [| discriminate].
    injection S as <-. destruct h. split.
    + reflexivity.
    + discriminate.
  - (* the commit of the caught value *)
    injection S as <-. destruct (P e eq_refl) as [H E]. split.
    + rewrite settle_commit_state.
      destruct (fst (componentDidCatch env props e info (world b)));
        cbn [hasError error]; rewrite H; discriminate.
    + intros e0 F. now apply settle_not_catching in F.
  - (* the fallback tree fails *)
    injection S as <-. destruct (P e eq_refl) as [H E]. split; cbn.
    + rewrite H. discriminate.
    + discriminate.
Qed.

Lemma run_ok (env : ImportMetaEnv)
      (evs : list (ErrorBoundaryProps * Label)) :
  forall b b', boundary_ok b -> run env b evs = Some b' -> boundary_ok b'.
Proof.
  induction evs as [|[props l] rest IH]; intros b b' Ok R; simpl in R.
  - now injection R as <-.
  - destruct (step env props b l) as [b1|] eqn:S; [| discriminate].
    apply (IH b1 b'); [now apply (step_ok env props b b1 l) | exact R].
Qed.

(** As long as nothing throws null, a set flag comes with an error. *)
Lemma step_ok_object (env : ImportMetaEnv) (props : ErrorBoundaryProps)
      (b b' : Boundary) (l : Label) :
  boundary_ok b ->
  throws_object l ->
  (hasError (this_state (world b)) = true ->
   error (this_state (world b)) <> None) ->
  step env props b l = Some b' ->
  hasError (this_state (world b')) = true ->
  error (this_state (world b')) <> None.
Proof.
  intros [C P] O I S. unfold step in S.
  destruct (phase b) as [|e|exn|t] eqn:Ph, l as [e'|info|h|t'];
    try discriminate.
  - injection S as <-. cbn. intros _. destruct e'; [discriminate | contradiction].
  - destruct (offers env props (this_state (world b)) h); [| discriminate].
    injection S as <-. destruct h. cbn. discriminate.
  - injection S as <-. destruct (P e eq_refl) as [H E].
    rewrite settle_commit_state.
    destruct (fst (componentDidCatch env props e info (world b)));
      cbn [hasError error]; [| exact I].
    intros _. rewrite <- E. now apply I.
  - injection S as <-. exact I.
Qed.

Lemma run_ok_object (env : ImportMetaEnv)
      (evs : list (ErrorBoundaryProps * Label)) :
  forall b b',
    boundary_ok b ->
    Forall (fun pe => throws_object (snd pe)) evs ->
    (hasError (this_state (world b)) = true ->
     error (this_state (world b)) <> None) ->
    run env b evs = Some b' ->
    hasError (this_state (world b')) = true ->
    error (this_state (world b')) <> None.
Proof.
  induction evs as [|[props l] rest IH]; intros b b' Ok F I R; simpl in R.
  - now injection R as <-.
  - destruct (step env props b l) as [b1|] eqn:S; [| discriminate].
    inversion F as [|pe tl Hd Tl]; subst.
    apply (IH b1 b'); [now apply (step_ok env props b b1 l) | exact Tl | | exact R].
    now apply (step_ok_object env props b b1 l).
Qed.

(** A step in which the callback, if any, returns normally does not let
    an exception out. *)
Lemma step_contained (env : ImportMetaEnv) (props : ErrorBoundaryProps)
      (b b' : Boundary) (l : Label) :
  onError_returns props ->
  (forall exn, phase b <> Escaped exn) ->
  step env props b l = Some b' ->
  forall exn, phase b' <> Escaped exn.
Proof.
  intros Cb N S exn. unfold step in S.
  destruct (phase b) as [|e|x|t] eqn:Ph, l as [e'|info|h|t'];
    try discriminate.
  - injection S as <-. discriminate.
  - destruct (offers env props (this_state (world b)) h); [| discriminate].
    injection S as <-. destruct h. discriminate.
  - injection S as <-. unfold settle. cbn [phase].
    rewrite componentDidCatch_completion.
    unfold onError_returns in Cb.
    destruct (onError props) as [cb|]; [rewrite Cb |]; discriminate.
  - injection S as <-. discriminate.
Qed.

Lemma run_contained (env : ImportMetaEnv)
      (evs : list (ErrorBoundaryProps * Label)) :
  forall b b',
    Forall (fun pe => onError_returns (fst pe)) evs ->
    (forall exn, phase b <> Escaped exn) ->
    run env b evs = Some b' ->
    forall exn, phase b' <> Escaped exn.
Proof.
  induction evs as [|[props l] rest IH]; intros b b' F N R; simpl in R.
  - now injection R as <-.
  - destruct (step env props b l) as [b1|] eqn:S; [| discriminate].
    inversion F as [|pe tl Hd Tl]; subst.
    apply (IH b1 b' Tl); [| exact R].
    now apply (step_contained env props b b1 l).
Qed.

(** The only event that clears the flag is a click on the retry button. *)
Lemma step_clears_only_by_click (env : ImportMetaEnv)
      (props : ErrorBoundaryProps) (b b' : Boundary) (l : Label) :
  step env props b l = Some b' ->
  hasError (this_state (world b)) = true ->
  hasError (this_state (world b')) = false ->
  l = LClick HandleReset.
Proof.
  intros S H H'. unfold step in S.
  destruct (phase b) as [|e|x|t] eqn:Ph, l as [e'|info|h|t'];
    try discriminate.
  - injection S as <-. simpl in H'. discriminate.
  - now destruct h.
  - injection S as <-. rewrite settle_commit_state in H'.
    destruct (fst (componentDidCatch env props e info (world b)));
      cbn [hasError] in H'; congruence.
  - injection S as <-. cbn in H'. congruence.
Qed.

(** The hook order matters for the invariant: the commit hook does not
    write [hasError], so run alone on a fresh instance it would store an
    error under a false flag.  React never calls it that way. *)
Remark componentDidCatch_alone_keeps_flag :
  this_state (snd (componentDidCatch production Samples.plain
                     (Some Samples.x_failed)
                     Samples.at_thrower (world (mount Samples.plain))))
  = {| hasError := false; error := Some Samples.x_failed;
       errorInfo := Some Samples.at_thrower |}.
Proof. reflexivity. Qed.

(** C5, as stated, after [throw null]: the static hook stores the null it
    is given under a set flag, and the commit hook stores it again; the
    boundary rests with [hasError] true and a null [error]. *)
Lemma throw_null_sets_flag_without_error :
  let b := {| world := {| this_state := Samples.caught_null; trace := [] |};
              phase := Settled |} in
  reachable production b
  /\ hasError (this_state (world b)) = true
  /\ error (this_state (world b)) = None
  /\ ~ (hasError (this_state (world b)) = true
        <-> error (this_state (world b)) <> None).
Proof.
  cbv zeta. split; [| split; [reflexivity | split; [reflexivity |]]].
  - exists Samples.plain,
      [(Samples.plain, LThrow None);
       (Samples.plain, LCommit Samples.at_thrower)].
    reflexivity.
  - cbn. intros [I _]. now apply I.
Qed.

(** C5, amended.  In every state a mounted boundary can reach (after the
    constructor, after the static hook, after the commit hook that
    follows it, after a reset, in any number and order React allows, with
    props changing freely), a stored [error] that is not null comes with
    [hasError] true; and as long as no descendant has thrown null,
    [hasError] is true exactly when the stored [error] is not null. *)
Theorem error_implies_hasError
        (env : ImportMetaEnv) (props0 : ErrorBoundaryProps)
        (evs : list (ErrorBoundaryProps * Label)) (b : Boundary) :
  run env (mount props0) evs = Some b ->
  (error (this_state (world b)) <> None ->
   hasError (this_state (world b)) = true)
  /\ (Forall (fun pe => throws_object (snd pe)) evs ->
      state_consistent (this_state (world b))).
Proof.
  intros R.
  pose proof (run_ok env evs (mount props0) b (mount_ok props0) R) as [C _].
  assert (A : error (this_state (world b)) <> None ->
              hasError (this_state (world b)) = true).
  { intros N. destruct (hasError (this_state (world b))); [reflexivity |].
    now destruct N; apply C. }
  split; [exact A |].
  intros F. split; [| exact A].
  apply (run_ok_object env evs (mount props0) b (mount_ok props0) F);
    [discriminate | exact R].
Qed.

Lemma error_implies_hasError_witness :
  let evs := [(Samples.reporting, LThrow (Some Samples.x_failed));
              (Samples.reporting, LCommit Samples.at_thrower)] in
  let b := {| world := {| this_state := Samples.caught;
                          trace := [OnErrorCall (Some Samples.x_failed)
                                                Samples.at_thrower] |};
              phase := Settled |} in
  run production (mount Samples.reporting) evs = Some b
  /\ (error (this_state (world b)) <> None ->
      hasError (this_state (world b)) = true)
  /\ (hasError (this_state (world b)) = true
      <-> error (this_state (world b)) <> None).
Proof.
  cbv zeta. split; [reflexivity |].
  destruct (error_implies_hasError production Samples.reporting
              [(Samples.reporting, LThrow (Some Samples.x_failed));
               (Samples.reporting, LCommit Samples.at_thrower)]
              _ eq_refl) as [A B].
  split; [exact A |].
  apply B. repeat constructor.
Defined.

(** C7.  A descendant's failure stays inside the boundary.  The commit
    hook throws nothing of its own: it completes the way the [onError]
    callback does, normally when there is none.  So along any run in
    which the callbacks return normally no exception leaves the hooks,
    and the captured failure is never raised again; and no event other
    than a click on the retry button turns a set [hasError] off: nothing
    retries by itself.  (A fallback tree that itself fails to render ends
    the run in [TreeFailed]: that exception is the fallback's own.) *)
Theorem failure_contained
        (env : ImportMetaEnv) (props0 : ErrorBoundaryProps)
        (evs : list (ErrorBoundaryProps * Label)) (b : Boundary) :
  Forall (fun pe => onError_returns (fst pe)) evs ->
  run env (mount props0) evs = Some b ->
  (forall exn, phase b <> Escaped exn)
  /\ (forall props e info w,
         fst (componentDidCatch env props e info w) =
         match onError props with
         | Some cb => cb e info
         | None => Normal tt
         end)
  /\ (forall props l b',
         step env props b l = Some b' ->
         hasError (this_state (world b)) = true ->
         hasError (this_state (world b')) = false ->
         l = LClick HandleReset).
Proof.
  intros F R. split; [| split].
  - apply (run_contained env evs (mount props0) b F); [discriminate | exact R].
  - intros props e info w. apply componentDidCatch_completion.
  - intros props l b'. apply step_clears_only_by_click.
Qed.

Lemma failure_contained_witness :
  let evs := [(Samples.reporting, LThrow (Some Samples.x_failed));
              (Samples.reporting, LCommit Samples.at_thrower)] in
  let b := {| world := {| this_state := Samples.caught;
                          trace := [ConsoleError
                                      "ErrorBoundary caught an error:"
                                      (Some Samples.x_failed)
                                      Samples.at_thrower;
                                    OnErrorCall (Some Samples.x_failed)
                                                Samples.at_thrower] |};
              phase := Settled |} in
  run development (mount Samples.reporting) evs = Some b
  /\ (forall exn, phase b <> Escaped exn).
Proof.
  cbv zeta. split; [reflexivity |].
  refine (proj1 (failure_contained development Samples.reporting
                   [(Samples.reporting, LThrow (Some Samples.x_failed));
                    (Samples.reporting, LCommit Samples.at_thrower)]
                   _ _ _)).
  - repeat constructor.
  - reflexivity.
Defined.

(* ===================================================================== *)
(** ** Further properties of the component *)
(* ===================================================================== *)

(** X1.  A capture sets the flag and stores the thrown value, whatever
    the state before, the build flags and the callback.  The descriptor
    is stored when [componentDidCatch] returns; when the [onError]
    callback throws, the exception leaves [componentDidCatch], the update
    it had queued is not applied, and [errorInfo] keeps the value it had.
    Either way the trace is only added to. *)
Theorem capture_records_failure
        (env : ImportMetaEnv) (props : ErrorBoundaryProps)
        (e : option Error) (info : ErrorInfo) (w : World) :
  let done := capture env props e info w in
  fst done = match onError props with
             | Some cb => cb e info
             | None => Normal tt
             end
  /\ this_state (snd done) =
     {| hasError := true;
        error := e;
        errorInfo := match fst done with
                     | Normal _ => Some info
                     | Throw _ => errorInfo (this_state w)
                     end |}
  /\ exists added, trace (snd done) = (trace w ++ added)%list.
Proof.
  cbv zeta. split; [| split].
  - unfold capture. rewrite react_commit_fst.
    apply componentDidCatch_completion.
  - apply capture_state.
  - unfold capture. rewrite react_commit_trace, componentDidCatch_trace.
    eexists. reflexivity.
Qed.

(** A capture whose callback throws: the error is held, its descriptor is
    not. *)
Remark capture_with_failing_callback :
  capture production Samples.badly_reporting (Some Samples.x_failed)
          Samples.at_thrower (world (mount Samples.badly_reporting))
  = (Throw (mkError "Error" "report failed"),
     {| this_state := {| hasError := true; error := Some Samples.x_failed;
                         errorInfo := None |};
        trace := [OnErrorCall (Some Samples.x_failed) Samples.at_thrower] |}).
Proof. reflexivity. Qed.

(** X2.  With the development flag off, what [render] returns does not
    depend on the stored error or its descriptor: nothing of the failure
    reaches the output. *)
Theorem production_render_hides_error
        (env : ImportMetaEnv) (props : ErrorBoundaryProps)
        (s : ErrorBoundaryState) :
  DEV env = false ->
  render env props s = render env props (redact s).
Proof.
  intros D. unfold render, redact, errorDetails. cbn [hasError error].
  now rewrite D.
Qed.

Lemma production_render_hides_error_witness :
  render production Samples.plain Samples.caught =
  render production Samples.plain
         {| hasError := true; error := None; errorInfo := None |}.
Proof.
  apply (production_render_hides_error production Samples.plain
           Samples.caught).
  reflexivity.
Defined.

(** X3.  While an error is held, [render] does not look at the children:
    two sets of props with the same [fallback] render the same, so
    swapping the children brings nothing back. *)
Theorem error_render_ignores_children
        (env : ImportMetaEnv) (p p' : ErrorBoundaryProps)
        (s : ErrorBoundaryState) :
  hasError s = true ->
  fallback p = fallback p' ->
  render env p s = render env p' s.
Proof.
  intros H F. unfold render, props_fallback. now rewrite H, F.
Qed.

Lemma error_render_ignores_children_witness :
  render development Samples.plain Samples.caught =
  render development App_boundary_props Samples.caught.
Proof.
  apply (error_render_ignores_children development Samples.plain
           App_boundary_props Samples.caught); reflexivity.
Defined.

(** X4.  While the built-in view is shown at rest, a click on its retry
    button is delivered: the boundary stays at rest, makes no outside
    call, and its next render returns the children of whatever props are
    then current. *)
Theorem retry_click_shows_children
        (env : ImportMetaEnv) (props : ErrorBoundaryProps) (w : World) :
  hasError (this_state w) = true ->
  truthy (props_fallback props) = false ->
  exists b',
    step env props {| world := w; phase := Settled |} (LClick HandleReset)
    = Some b'
    /\ phase b' = Settled
    /\ trace (world b') = trace w
    /\ forall props',
         render env props' (this_state (world b')) = Normal (children props').
Proof.
  intros H T. eexists. split; [now apply retry_click_resets |].
  repeat split.
Qed.

Lemma retry_click_shows_children_witness :
  exists b',
    step production Samples.plain
         {| world := {| this_state := Samples.caught; trace := [] |};
            phase := Settled |} (LClick HandleReset)
    = Some b'
    /\ phase b' = Settled
    /\ trace (world b') = []
    /\ forall props',
         render production props' (this_state (world b'))
         = Normal (children props').
Proof.
  apply (retry_click_shows_children production Samples.plain
           {| this_state := Samples.caught; trace := [] |}); reflexivity.
Defined.

(* --------------------------------------------------------------------- *)
(** *** The states a boundary rests in *)
(* --------------------------------------------------------------------- *)

(** The shapes of state of a run: the constructor's whenever the flag is
    off; the flag on and the thrown value stored between the static hook
    and the commit; flag, thrown value and descriptor all stored when the
    boundary is at rest with the flag on. *)
Definition shaped (b : Boundary) : Prop :=
  (hasError (this_state (world b)) = false ->
   this_state (world b) =
   {| hasError := false; error := None; errorInfo := None |})
  /\ (forall e, phase b = Catching e ->
        hasError (this_state (world b)) = true
        /\ error (this_state (world b)) = e)
  /\ (phase b = Settled ->
      hasError (this_state (world b)) = true ->
      exists e info,
        this_state (world b) =
        {| hasError := true; error := e; errorInfo := Some info |}).

Lemma mount_shaped (props : ErrorBoundaryProps) : shaped (mount props).
Proof.
  split; [reflexivity | split; discriminate].
Qed.

Lemma step_shaped (env : ImportMetaEnv) (props : ErrorBoundaryProps)
      (b b' : Boundary) (l : Label) :
  shaped b -> step env props b l = Some b' -> shaped b'.
Proof.
  intros (I & C & R) S. unfold step in S.
  destruct (phase b) as [|e|exn|t] eqn:Ph, l as [e'|info|h|t'];
    try discriminate.
  - (* a descendant throws: flag and thrown value written together *)
    injection S as <-. split; [| split]; cbn.
    + discriminate.
    + intros e0 F. injection F as <-. now split.
    + discriminate.
  - (* a click on an offered handler: the constructor's state *)
    destruct (offers env props (this_state (world b)) h); [| discriminate].
    injection S as <-. destruct h. split; [| split].
    + reflexivity.
    + discriminate.
    + discriminate.
  - (* the commit: the descriptor joins the thrown value, unless the
       callback throws *)
    injection S as <-. destruct (C e eq_refl) as [H E].
    unfold shaped. rewrite settle_commit_state. unfold settle. cbn [phase].
    destruct (fst (componentDidCatch env props e info (world b)));
      cbn [hasError error]; rewrite H; (split; [| split]);
      try discriminate.
    intros _ _. now exists e, info.
  - (* the fallback tree fails: nothing is written *)
    injection S as <-. destruct (C e eq_refl) as [H E].
    unfold shaped. cbn [world phase]. rewrite H.
    split; [| split]; discriminate.
Qed.

Lemma run_shaped (env : ImportMetaEnv)
      (evs : list (ErrorBoundaryProps * Label)) :
  forall b b', shaped b -> run env b evs = Some b' -> shaped b'.
Proof.
  induction evs as [|[props l] rest IH]; intros b b' Ok R; simpl in R.
  - now injection R as <-.
  - destruct (step env props b l) as [b1|] eqn:S; [| discriminate].
    apply (IH b1 b'); [now apply (step_shaped env props b b1 l) | exact R].
Qed.

(** X5.  A reachable boundary at rest (mounted, not between the static
    hook and its commit) is in one of two states: the constructor's state
    (flag off, no error, no descriptor), or a state with the flag on, the
    thrown value stored (null when null was thrown) and the descriptor
    stored. *)
Theorem rest_state_shapes (env : ImportMetaEnv) (b : Boundary) :
  reachable env b ->
  phase b = Settled ->
  this_state (world b) =
  {| hasError := false; error := None; errorInfo := None |}
  \/ exists e info,
       this_state (world b) =
       {| hasError := true; error := e; errorInfo := Some info |}.
Proof.
  intros (props & evs & R) N.
  destruct (run_shaped env evs (mount props) b (mount_shaped props) R)
    as (I & _ & F).
  destruct (hasError (this_state (world b))) eqn:H.
  - right. now apply F.
  - left. now apply I.
Qed.

Lemma rest_state_shapes_witness :
  let b := {| world := {| this_state := Samples.caught; trace := [] |};
              phase := Settled |} in
  reachable production b
  /\ (this_state (world b) =
      {| hasError := false; error := None; errorInfo := None |}
      \/ exists e info,
           this_state (world b) =
           {| hasError := true; error := e; errorInfo := Some info |}).
Proof.
  cbv zeta.
  assert (R : reachable production
                {| world := {| this_state := Samples.caught; trace := [] |};
                   phase := Settled |}).
  { exists Samples.plain,
      [(Samples.plain, LThrow (Some Samples.x_failed));
       (Samples.plain, LCommit Samples.at_thrower)].
    reflexivity. }
  split; [exact R |].
  apply (rest_state_shapes production _ R). reflexivity.
Defined.

(* --------------------------------------------------------------------- *)
(** *** A custom fallback has no way back *)
(* --------------------------------------------------------------------- *)

Lemma inert_fallback_no_retry (env : ImportMetaEnv)
      (props : ErrorBoundaryProps) (s : ErrorBoundaryState) :
  inert_fallback props ->
  hasError s = true ->
  offers env props s HandleReset = false.
Proof.
  intros [T N] H. unfold offers, render. now rewrite H, T.
Qed.

Lemma step_keeps_error (env : ImportMetaEnv) (props : ErrorBoundaryProps)
      (b b' : Boundary) (l : Label) :
  inert_fallback props ->
  hasError (this_state (world b)) = true ->
  step env props b l = Some b' ->
  hasError (this_state (world b')) = true.
Proof.
  intros In H S.
  destruct (hasError (this_state (world b'))) eqn:H'; [reflexivity |].
  pose proof (step_clears_only_by_click env props b b' l S H H') as ->.
  unfold step in S. destruct (phase b); try discriminate.
  now rewrite (inert_fallback_no_retry env props _ In H) in S.
Qed.

(** X6.  The reset handler is attached to the built-in view only.  So
    while the caller supplies a truthy fallback that does not itself
    carry that handler, no sequence of events clears a captured error:
    the children are not rendered again. *)
Theorem custom_fallback_never_recovers
        (env : ImportMetaEnv) (evs : list (ErrorBoundaryProps * Label)) :
  forall b b',
    Forall (fun pe => inert_fallback (fst pe)) evs ->
    hasError (this_state (world b)) = true ->
    run env b evs = Some b' ->
    hasError (this_state (world b')) = true.
Proof.
  induction evs as [|[props l] rest IH]; intros b b' F H R; simpl in R.
  - now injection R as <-.
  - destruct (step env props b l) as [b1|] eqn:S; [| discriminate].
    inversion F as [|pe tl Hd Tl]; subst.
    apply (IH b1 b' Tl); [| exact R].
    now apply (step_keeps_error env props b b1 l).
Qed.

Lemma custom_fallback_never_recovers_witness :
  let b := {| world := {| this_state := Samples.caught; trace := [] |};
              phase := Settled |} in
  let evs := [(Samples.with_oops, LThrow (Some Samples.x_failed));
              (Samples.with_oops, LCommit Samples.at_thrower)] in
  step development Samples.with_oops b (LClick HandleReset) = None
  /\ exists b',
       run development b evs = Some b'
       /\ hasError (this_state (world b')) = true.
Proof.
  cbv zeta. split; [reflexivity |].
  eexists. split; [reflexivity |].
  apply (custom_fallback_never_recovers development
           [(Samples.with_oops, LThrow (Some Samples.x_failed));
            (Samples.with_oops, LCommit Samples.at_thrower)]
           {| world := {| this_state := Samples.caught; trace := [] |};
              phase := Settled |}).
  - repeat constructor.
  - reflexivity.
  - reflexivity.
Defined.

(* --------------------------------------------------------------------- *)
(** *** Outside calls along a run *)
(* --------------------------------------------------------------------- *)

Lemma count_onError_app (t u : list Event) :
  count_onError (t ++ u) = count_onError t + count_onError u.
Proof.
  unfold count_onError. now rewrite filter_app, length_app.
Qed.

Lemma count_console_app (t u : list Event) :
  count_console (t ++ u) = count_console t + count_console u.
Proof.
  unfold count_console. now rewrite filter_app, length_app.
Qed.

Lemma step_counts (env : ImportMetaEnv) (props : ErrorBoundaryProps)
      (b b' : Boundary) (l : Label) :
  step env props b l = Some b' ->
  count_onError (trace (world b')) =
  count_onError (trace (world b))
  + commits [(props, l)] * (if truthy_ref (onError props) then 1 else 0)
  /\ count_console (trace (world b')) =
     count_console (trace (world b))
     + commits [(props, l)] * (if DEV env then 1 else 0).
Proof.
  intros S. unfold step in S.
  destruct (phase b) as [|e|exn|t] eqn:Ph, l as [e'|info|h|t'];
    try discriminate.
  - injection S as <-. unfold count_onError, count_console. cbn. lia.
  - destruct (offers env props (this_state (world b)) h); [| discriminate].
    injection S as <-. destruct h. unfold count_onError, count_console.
    cbn. lia.
  - injection S as <-. unfold settle. cbn [world].
    rewrite react_commit_trace, componentDidCatch_trace,
      !count_onError_app, !count_console_app.
    unfold count_onError, count_console.
    destruct (DEV env), (onError props); cbn; lia.
  - injection S as <-. unfold count_onError, count_console. cbn. lia.
Qed.

(** Counting the outside calls of a run, event by event. *)
Lemma run_counts
      (env : ImportMetaEnv) (evs : list (ErrorBoundaryProps * Label)) :
  forall b b',
    run env b evs = Some b' ->
    count_onError (trace (world b')) =
    count_onError (trace (world b)) + reported_commits evs
    /\ count_console (trace (world b')) =
       count_console (trace (world b))
       + (if DEV env then commits evs else 0).
Proof.
  induction evs as [|[props l] rest IH]; intros b b' R; simpl in R.
  - injection R as <-. unfold reported_commits, commits. cbn [filter List.length].
    destruct (DEV env); lia.
  - destruct (step env props b l) as [b1|] eqn:S; [| discriminate].
    destruct (IH b1 b' R) as [A B].
    destruct (step_counts env props b b1 l S) as [A1 B1].
    rewrite A, B, A1, B1.
    unfold reported_commits, commits. cbn [filter fst snd].
    destruct (is_commit l), (onError props), (DEV env);
      cbn [andb truthy_ref List.length Nat.mul Nat.add]; lia.
Qed.

(** X7.  Along any run, from any boundary, the [onError] prop is called
    once for every commit made while it was supplied and at no other
    time, and [console.error] once for every commit in a development
    build and never otherwise: throws and resets make no outside call. *)
Theorem outside_calls_per_run
        (env : ImportMetaEnv) (evs : list (ErrorBoundaryProps * Label))
        (b b' : Boundary) :
  run env b evs = Some b' ->
  count_onError (trace (world b')) =
  count_onError (trace (world b)) + reported_commits evs
  /\ count_console (trace (world b')) =
     count_console (trace (world b))
     + (if DEV env then commits evs else 0).
Proof.
  apply run_counts.
Qed.

Lemma outside_calls_per_run_witness :
  let evs := [(Samples.reporting, LThrow (Some Samples.x_failed));
              (Samples.reporting, LCommit Samples.at_thrower);
              (Samples.plain, LClick HandleReset);
              (Samples.plain, LThrow (Some Samples.x_failed));
              (Samples.plain, LCommit Samples.at_thrower)] in
  exists b',
    run development (mount Samples.reporting) evs = Some b'
    /\ count_onError (trace (world b')) = 1
    /\ count_console (trace (world b')) = 2.
Proof.
  cbv zeta. eexists. split; [reflexivity |].
  apply (outside_calls_per_run development
           [(Samples.reporting, LThrow (Some Samples.x_failed));
            (Samples.reporting, LCommit Samples.at_thrower);
            (Samples.plain, LClick HandleReset);
            (Samples.plain, LThrow (Some Samples.x_failed));
            (Samples.plain, LCommit Samples.at_thrower)]
           (mount Samples.reporting)).
  reflexivity.
Defined.

(* --------------------------------------------------------------------- *)
(** *** The built-in view as markup *)
(* --------------------------------------------------------------------- *)

(** X8.  Whenever the built-in view is rendered, in any build and with or
    without a stored error or stack: the [aria-labelledby] of its section
    names the one [id] present in the view, that of the title; and the
    only handler attached anywhere in it is the reset handler, on the
    click of one element. *)
Theorem builtin_view_structure
        (env : ImportMetaEnv) (props : ErrorBoundaryProps)
        (s : ErrorBoundaryState) :
  hasError s = true ->
  truthy (props_fallback props) = false ->
  exists out,
    render env props s = Normal out
    /\ attr_values "aria-labelledby" out = [AStr "error-title"]
    /\ attr_values "id" out = [AStr "error-title"]
    /\ find_node (fun n => match n with
                           | RElement _ attrs _ =>
                               match attr_of "id" attrs with
                               | Some (AStr i) => String.eqb i "error-title"
                               | _ => false
                               end
                           | _ => false
                           end) out = Some errorTitle
    /\ handlers_of out = [("onClick", HandleReset)].
Proof.
  intros H T. unfold render. rewrite H, T.
  destruct (error s) as [e|] eqn:E.
  - rewrite (errorDetails_some env s e E). eexists. split; [reflexivity |].
    destruct (DEV env); [| repeat split].
    destruct (opt_componentStack (errorInfo s)); repeat split.
  - rewrite (errorDetails_none env s E). eexists. split; [reflexivity |].
    destruct (DEV env); repeat split.
Qed.

Lemma builtin_view_structure_witness :
  exists out,
    render development Samples.plain Samples.caught = Normal out
    /\ attr_values "aria-labelledby" out = [AStr "error-title"]
    /\ attr_values "id" out = [AStr "error-title"]
    /\ find_node (fun n => match n with
                           | RElement _ attrs _ =>
                               match attr_of "id" attrs with
                               | Some (AStr i) => String.eqb i "error-title"
                               | _ => false
                               end
                           | _ => false
                           end) out = Some errorTitle
    /\ handlers_of out = [("onClick", HandleReset)].
Proof.
  apply (builtin_view_structure development Samples.plain Samples.caught);
    reflexivity.
Defined.

(* --------------------------------------------------------------------- *)
(** *** The boundary as the application mounts it *)
(* --------------------------------------------------------------------- *)

Lemma counts_cover (t : list Event) :
  count_onError t + count_console t = List.length t.
Proof.
  unfold count_onError, count_console.
  induction t as [|[l e i|e i] t IH]; cbn [filter List.length]; lia.
Qed.

Lemma reported_commits_none (evs : list (ErrorBoundaryProps * Label)) :
  Forall (fun pe => onError (fst pe) = None) evs ->
  reported_commits evs = 0.
Proof.
  unfold reported_commits.
  induction 1 as [|[props l] rest Hd Tl IH]; [reflexivity |].
  cbn [filter fst snd] in *. rewrite Hd. cbn [truthy_ref].
  now rewrite andb_false_r.
Qed.

(** X9.  The application mounts the boundary with children only, so
    without an [onError] prop.  Along any run of that boundary no
    callback is called; in a production build no outside call is made at
    all, so a failure is reported nowhere; in a development build the
    only outside calls are the [console.error] of each commit. *)
Theorem App_boundary_runs
        (env : ImportMetaEnv) (evs : list (ErrorBoundaryProps * Label))
        (b : Boundary) :
  Forall (fun pe => fst pe = App_boundary_props) evs ->
  run env (mount App_boundary_props) evs = Some b ->
  count_onError (trace (world b)) = 0
  /\ List.length (trace (world b)) = (if DEV env then commits evs else 0).
Proof.
  intros F R.
  assert (Fn : Forall (fun pe => onError (fst pe) = None) evs).
  { eapply Forall_impl; [| exact F]. now intros [p l] ->. }
  destruct (run_counts env evs _ _ R) as [A B].
  rewrite (reported_commits_none evs Fn) in A. cbn in A.
  split; [exact A |].
  rewrite <- counts_cover, A, B. cbn.
  destruct (DEV env); reflexivity.
Qed.

Lemma App_boundary_runs_witness :
  let evs := [(App_boundary_props, LThrow (Some Samples.x_failed));
              (App_boundary_props, LCommit Samples.at_thrower)] in
  let b := {| world := {| this_state := Samples.caught; trace := [] |};
              phase := Settled |} in
  run production (mount App_boundary_props) evs = Some b
  /\ count_onError (trace (world b)) = 0
  /\ List.length (trace (world b)) = 0.
Proof.
  cbv zeta. split; [reflexivity |].
  apply (App_boundary_runs production
           [(App_boundary_props, LThrow (Some Samples.x_failed));
            (App_boundary_props, LCommit Samples.at_thrower)]).
  - repeat constructor.
  - reflexivity.
Defined.
